(** * RobotControl.h: the exported interface of the robot-control library

    The repository's only source file is the header
    [MobileLighting_Mac/RobotControl/RobotControl/RobotControl.h].  It is
    embedded here line by line as text, together with the part of the C
    front end that gives the text its meaning:

    - a lexer that splits a line into words and punctuation and sets a
      [//] comment apart,
    - a line parser that recognises preprocessor directives, visibility
      pragmas, function prototypes and the other external declarations a
      header may hold,
    - a translation-unit machine that includes a file: conditional
      inclusion over a set of defined macros, the stack of
      [#pragma GCC visibility] settings, and the list of function
      declarations seen so far, each with the visibility in force.

    Every statement below is about [RobotControl_h], the text of the header. *)

From Stdlib Require Import Ascii String List Bool Arith Lia.
From stdpp Require Import base decidable option list gmap strings.
Import ListNotations.

Local Open Scope string_scope.
Local Open Scope list_scope.

(** ** The source text *)

(** [RobotControl.h], one string per line (the last line has no newline). *)
Definition RobotControl_h : list string :=
  [ "//"
  ; "// RobotControl.h"
  ; "// RobotControl"
  ; "// Guanghan Pan"
  ; "//"
  ; "// Header file to export functions"
  ; "//"
  ; ""
  ; ""
  ; "#ifndef RobotControl_"
  ; "#define RobotControl_"
  ; ""
  ; "#pragma GCC visibility push(default)"
  ; ""
  ; "int Clinet();"
  ; "int SendCommand(char *);"
  ; "int GotoView(char *);"
  ; "int LoadPath(char *);"
  ; "int ExecutePath();"
  ; "int SetVelocity(float);"
  ; ""
  ; "#pragma GCC visibility pop"
  ; "#endif"
  ].

(** The macro of the include guard. *)
Definition guard : string := "RobotControl_".

(** ** Lexical analysis of one line *)

Module Lexer.

Inductive token : Type :=
| Word (w : string)      (* identifier, keyword or number *)
| Punct (c : ascii).     (* any other visible character *)

#[global] Instance token_eq_dec : EqDecision token.
Proof. solve_decision. Defined.

Definition is_space (c : ascii) : bool :=
  let n := nat_of_ascii c in
  ((n =? 32) || (n =? 9) || (n =? 10) || (n =? 13) || (n =? 11) || (n =? 12))%nat.

Definition is_word_char (c : ascii) : bool :=
  let n := nat_of_ascii c in
  (((48 <=? n) && (n <=? 57)) || ((65 <=? n) && (n <=? 90))
   || ((97 <=? n) && (n <=? 122)) || (n =? 95))%nat.

(** [acc] holds the characters of the word being read, in order. *)
Definition flush (acc : string) : list token :=
  match acc with
  | EmptyString => []
  | _ => [Word acc]
  end.

(** Tokens of the line, and the text of its [//] comment if it has one. *)
Fixpoint lex_from (acc : string) (s : string) : list token * option string :=
  match s with
  | EmptyString => (flush acc, None)
  | String c rest =>
      match c, rest with
      | "/"%char, String "/"%char text => (flush acc, Some text)
      | _, _ =>
          if is_word_char c then lex_from (String.append acc (String c EmptyString)) rest
          else
            let '(ts, cm) := lex_from EmptyString rest in
            if is_space c then (flush acc ++ ts, cm)
            else (flush acc ++ Punct c :: ts, cm)
      end
  end.

Definition lex (line : string) : list token * option string :=
  lex_from EmptyString line.

End Lexer.
Import Lexer.

(** ** Abstract syntax of the lines of a header *)

Inductive ctype : Type :=
| Tvoid | Tchar | Tshort | Tint | Tlong | Tfloat | Tdouble
| Tpointer (t : ctype)
| Tstruct (tag : string)
| Tunion (tag : string)
| Tenum (tag : string)
| Tnamed (id : string).          (* a typedef name *)

(** The three forms of a parameter list in a C declaration. *)
Inductive params : Type :=
| Punspecified                    (* f()     : nothing said about the arguments *)
| Pvoid                           (* f(void) : no argument *)
| Pproto (ts : list ctype).       (* f(t1, ..., tn) *)

Record prototype : Type := Proto {
  ret : ctype;
  name : string;
  pars : params
}.

Inductive visibility : Type := Default | Hidden | Internal | Protected.

Inductive line : Type :=
| LBlank                                    (* only white space and comment *)
| LIfndef (m : string)
| LIfdef (m : string)
| LDefine (m : string) (body : list token)
| LUndef (m : string)
| LEndif
| LVisPush (v : visibility)
| LVisPop
| LDirective (ts : list token)              (* any other # line *)
| LProto (p : prototype)                    (* declarator followed by ;  *)
| LFunDef (p : prototype) (ts : list token) (* declarator followed by {  *)
| LVarDecl (t : ctype) (x : string) (ts : list token)
| LTypeDef (ts : list token)                (* typedef, struct, union, enum *)
| LOther (ts : list token).                 (* statements and the rest *)

#[global] Instance ctype_eq_dec : EqDecision ctype.
Proof. solve_decision. Defined.
#[global] Instance params_eq_dec : EqDecision params.
Proof. solve_decision. Defined.
#[global] Instance prototype_eq_dec : EqDecision prototype.
Proof. solve_decision. Defined.
#[global] Instance visibility_eq_dec : EqDecision visibility.
Proof. solve_decision. Defined.
#[global] Instance line_eq_dec : EqDecision line.
Proof. solve_decision. Defined.

(** A type is primitive when it is built from the arithmetic types, [void]
    and pointers only. *)
Fixpoint primitive (t : ctype) : bool :=
  match t with
  | Tvoid | Tchar | Tshort | Tint | Tlong | Tfloat | Tdouble => true
  | Tpointer t' => primitive t'
  | Tstruct _ | Tunion _ | Tenum _ | Tnamed _ => false
  end.

Definition param_types (ps : params) : list ctype :=
  match ps with
  | Punspecified | Pvoid => []
  | Pproto ts => ts
  end.

(** Whether a call with arguments of types [args] is accepted against the
    parameter list: nothing is checked against [()]. *)
Definition call_ok (ps : params) (args : list ctype) : bool :=
  match ps with
  | Punspecified => true
  | Pvoid => bool_decide (args = [])
  | Pproto ts => bool_decide (args = ts)
  end.

(** ** Parsing one line *)

Module Parser.

Definition keyword (w : string) : bool :=
  bool_decide (w ∈ ["void"; "char"; "short"; "int"; "long"; "float"; "double";
                    "struct"; "union"; "enum"; "typedef"; "const"; "return";
                    "if"; "else"; "while"; "for"; "do"; "static"; "extern"]).

(** A type specifier at the head of the tokens. *)
Definition parse_base (ts : list token) : option (ctype * list token) :=
  match ts with
  | Word "void" :: r => Some (Tvoid, r)
  | Word "char" :: r => Some (Tchar, r)
  | Word "short" :: r => Some (Tshort, r)
  | Word "int" :: r => Some (Tint, r)
  | Word "long" :: r => Some (Tlong, r)
  | Word "float" :: r => Some (Tfloat, r)
  | Word "double" :: r => Some (Tdouble, r)
  | Word "struct" :: Word tag :: r => Some (Tstruct tag, r)
  | Word "union" :: Word tag :: r => Some (Tunion tag, r)
  | Word "enum" :: Word tag :: r => Some (Tenum tag, r)
  | Word w :: r => if keyword w then None else Some (Tnamed w, r)
  | _ => None
  end.

(** The [*]s of a declarator. *)
Fixpoint parse_stars (t : ctype) (ts : list token) : ctype * list token :=
  match ts with
  | Punct "*"%char :: r => parse_stars (Tpointer t) r
  | _ => (t, ts)
  end.

(** One parameter: a type, and a name that is read and dropped. *)
Definition parse_param (ts : list token) : option (ctype * list token) :=
  match parse_base ts with
  | None => None
  | Some (b, r) =>
      let '(t, r') := parse_stars b r in
      match r' with
      | Word x :: r'' => if keyword x then None else Some (t, r'')
      | _ => Some (t, r')
      end
  end.

(** Parameters up to the closing parenthesis, which is consumed. *)
Fixpoint parse_param_list (fuel : nat) (ts : list token)
  : option (list ctype * list token) :=
  match fuel with
  | O => None
  | S fuel' =>
      match parse_param ts with
      | None => None
      | Some (t, Punct ")"%char :: r) => Some ([t], r)
      | Some (t, Punct ","%char :: r) =>
          match parse_param_list fuel' r with
          | Some (l, r') => Some (t :: l, r')
          | None => None
          end
      | Some _ => None
      end
  end.

(** What follows the opening parenthesis of a function declarator. *)
Definition parse_params (ts : list token) : option (params * list token) :=
  match ts with
  | Punct ")"%char :: r => Some (Punspecified, r)
  | Word "void" :: Punct ")"%char :: r => Some (Pvoid, r)
  | _ =>
      match parse_param_list (length ts) ts with
      | Some (l, r) => Some (Pproto l, r)
      | None => None
      end
  end.

Definition parse_visibility (w : string) : option visibility :=
  if bool_decide (w = "default") then Some Default
  else if bool_decide (w = "hidden") then Some Hidden
  else if bool_decide (w = "internal") then Some Internal
  else if bool_decide (w = "protected") then Some Protected
  else None.

(** The tokens after [#]. *)
Definition parse_directive (ts : list token) : line :=
  match ts with
  | [Word "ifndef"; Word m] => LIfndef m
  | [Word "ifdef"; Word m] => LIfdef m
  | Word "define" :: Word m :: body => LDefine m body
  | [Word "undef"; Word m] => LUndef m
  | [Word "endif"] => LEndif
  | [Word "pragma"; Word "GCC"; Word "visibility"; Word "push";
     Punct "("%char; Word v; Punct ")"%char] =>
      match parse_visibility v with
      | Some vis => LVisPush vis
      | None => LDirective ts
      end
  | [Word "pragma"; Word "GCC"; Word "visibility"; Word "pop"] => LVisPop
  | _ => LDirective ts
  end.

(** A line that is not a directive: an external declaration, or not. *)
Definition parse_declaration (ts : list token) : line :=
  match ts with
  | Word "typedef" :: _ => LTypeDef ts
  | _ =>
      match parse_base ts with
      | None => LOther ts
      | Some (b, r) =>
          let '(t, r') := parse_stars b r in
          match r' with
          | Word f :: Punct "("%char :: r'' =>
              if keyword f then LOther ts
              else
                match parse_params r'' with
                | Some (ps, [Punct ";"%char]) => LProto (Proto t f ps)
                | Some (ps, Punct "{"%char :: body) => LFunDef (Proto t f ps) body
                | _ => LOther ts
                end
          | Word x :: Punct ";"%char :: rest =>
              if keyword x then LOther ts else LVarDecl t x rest
          | Word x :: Punct "="%char :: rest =>
              if keyword x then LOther ts else LVarDecl t x rest
          | Punct "{"%char :: _ | Punct ";"%char :: _ =>
              if primitive b then LOther ts else LTypeDef ts
          | _ => LOther ts
          end
      end
  end.

Definition parse_tokens (ts : list token) : line :=
  match ts with
  | [] => LBlank
  | Punct "#"%char :: d => parse_directive d
  | _ => parse_declaration ts
  end.

Definition parse_line (s : string) : line := parse_tokens (fst (lex s)).

End Parser.
Import Parser.

(** The header, parsed line by line. *)
Definition header_lines : list line := map parse_line RobotControl_h.

(** The comments of a text, each with the number of its line (from 1). *)
Fixpoint comments_from (n : nat) (src : list string) : list (nat * string) :=
  match src with
  | [] => []
  | s :: src' =>
      match snd (lex s) with
      | Some c => (n, c) :: comments_from (S n) src'
      | None => comments_from (S n) src'
      end
  end.

Definition comments (src : list string) : list (nat * string) := comments_from 1 src.

(** Numbers (from 1) of the lines that satisfy [p]. *)
Fixpoint lines_where_from (n : nat) (p : line -> bool) (ls : list line) : list nat :=
  match ls with
  | [] => []
  | l :: ls' =>
      if p l then n :: lines_where_from (S n) p ls'
      else lines_where_from (S n) p ls'
  end.

Definition lines_where (p : line -> bool) (ls : list line) : list nat :=
  lines_where_from 1 p ls.

Definition is_proto (l : line) : bool :=
  match l with LProto _ => true | _ => false end.
Definition is_vis_push (l : line) : bool :=
  match l with LVisPush _ => true | _ => false end.
Definition is_vis_pop (l : line) : bool :=
  match l with LVisPop => true | _ => false end.
Definition is_guard_directive (l : line) : bool :=
  match l with
  | LIfndef m | LDefine m [] => bool_decide (m = guard)
  | LEndif => true
  | _ => false
  end.

(** The functions a text declares, by prototype or by definition. *)
Fixpoint declarations (ls : list line) : list prototype :=
  match ls with
  | [] => []
  | LProto p :: ls' | LFunDef p _ :: ls' => p :: declarations ls'
  | _ :: ls' => declarations ls'
  end.

(** The body the text gives to function [f], if it defines it. *)
Fixpoint body_of (f : string) (ls : list line) : option (list token) :=
  match ls with
  | [] => None
  | LFunDef p b :: ls' => if bool_decide (name p = f) then Some b else body_of f ls'
  | _ :: ls' => body_of f ls'
  end.

(** Every type a line mentions in a declaration. *)
Definition types_of_proto (p : prototype) : list ctype :=
  ret p :: param_types (pars p).

Definition types_of_line (l : line) : list ctype :=
  match l with
  | LProto p | LFunDef p _ => types_of_proto p
  | LVarDecl t _ _ => [t]
  | _ => []
  end.

(** Lines that define a type, an object or code. *)
Definition defines_type (l : line) : bool :=
  match l with LTypeDef _ => true | _ => false end.
Definition defines_object (l : line) : bool :=
  match l with LVarDecl _ _ _ => true | _ => false end.
Definition has_code (l : line) : bool :=
  match l with LFunDef _ _ | LOther _ => true | _ => false end.

(** Nesting of the visibility pragmas of a text: [Some d] when no [pop]
    comes before its [push], with [d] pushes left open at the end. *)
Fixpoint vis_depth (d : nat) (ls : list line) : option nat :=
  match ls with
  | [] => Some d
  | LVisPush _ :: ls' => vis_depth (S d) ls'
  | LVisPop :: ls' =>
      match d with
      | O => None
      | S d' => vis_depth d' ls'
      end
  | _ :: ls' => vis_depth d ls'
  end.

(** ** Including a file into a translation unit *)

Record tu_state : Type := TU {
  macros : gset string;                   (* macros defined so far *)
  conds : list bool;                      (* open conditionals: group kept? *)
  ambient : visibility;                   (* the -fvisibility setting *)
  vis_stack : list visibility;            (* open visibility pushes *)
  decls : list (prototype * visibility)   (* function declarations seen *)
}.

(** Lines are processed only when every open conditional group is kept. *)
Definition active (st : tu_state) : bool := forallb id (conds st).

Definition current_visibility (st : tu_state) : visibility :=
  hd (ambient st) (vis_stack st).

Definition defined (m : string) (st : tu_state) : bool :=
  bool_decide (m ∈ macros st).

Definition push_cond (b : bool) (st : tu_state) : tu_state :=
  TU (macros st) (b :: conds st) (ambient st) (vis_stack st) (decls st).

Definition pop_cond (st : tu_state) : option tu_state :=
  match conds st with
  | [] => None
  | _ :: cs => Some (TU (macros st) cs (ambient st) (vis_stack st) (decls st))
  end.

Definition set_macros (ms : gset string) (st : tu_state) : tu_state :=
  TU ms (conds st) (ambient st) (vis_stack st) (decls st).

Definition set_vis_stack (vs : list visibility) (st : tu_state) : tu_state :=
  TU (macros st) (conds st) (ambient st) vs (decls st).

Definition declare (p : prototype) (st : tu_state) : tu_state :=
  TU (macros st) (conds st) (ambient st) (vis_stack st)
     (decls st ++ [(p, current_visibility st)]).

(** One line.  [None] is an error ([#endif] without [#if]) or a line outside
    the fragment of C this machine covers. *)
Definition step (st : tu_state) (l : line) : option tu_state :=
  match l with
  | LBlank => Some st
  | LIfndef m => Some (push_cond (negb (defined m st)) st)
  | LIfdef m => Some (push_cond (defined m st) st)
  | LEndif => pop_cond st
  | LDirective _ => None
  | _ =>
      if active st then
        match l with
        | LDefine m _ => Some (set_macros ({[m]} ∪ macros st) st)
        | LUndef m => Some (set_macros (macros st ∖ {[m]}) st)
        | LVisPush v => Some (set_vis_stack (v :: vis_stack st) st)
        | LVisPop => Some (set_vis_stack (tl (vis_stack st)) st)
        | LProto p => Some (declare p st)
        | _ => None
        end
      else Some st
  end.

Fixpoint run (ls : list line) (st : tu_state) : option tu_state :=
  match ls with
  | [] => Some st
  | l :: ls' =>
      match step st l with
      | Some st' => run ls' st'
      | None => None
      end
  end.

(** [#include "RobotControl.h"] *)
Definition include (st : tu_state) : option tu_state := run header_lines st.

(** [n] inclusions in a row. *)
Fixpoint include_times (n : nat) (st : tu_state) : option tu_state :=
  match n with
  | O => Some st
  | S n' =>
      match include st with
      | Some st' => include_times n' st'
      | None => None
      end
  end.

(** A translation unit before its first line. *)
Definition initial (amb : visibility) : tu_state := TU ∅ [] amb [] [].

(** The declarations the header adds when its body is entered. *)
Definition exported : list (prototype * visibility) :=
  [ (Proto Tint "Clinet" Punspecified, Default)
  ; (Proto Tint "SendCommand" (Pproto [Tpointer Tchar]), Default)
  ; (Proto Tint "GotoView" (Pproto [Tpointer Tchar]), Default)
  ; (Proto Tint "LoadPath" (Pproto [Tpointer Tchar]), Default)
  ; (Proto Tint "ExecutePath" Punspecified, Default)
  ; (Proto Tint "SetVelocity" (Pproto [Tfloat]), Default) ].

(** Whether an inclusion enters the body of the header. *)
Definition enters (st : tu_state) : bool := active st && negb (defined guard st).

(** The declaration of function [f] in a text, if it has one. *)
Definition find_decl (f : string) (ls : list line) : option prototype :=
  List.find (fun p => bool_decide (name p = f)) (declarations ls).

(** How many times a text declares [f]. *)
Definition times_declared (f : string) (ls : list line) : nat :=
  length (List.filter (fun p => bool_decide (name p = f)) (declarations ls)).

(** The words of a line outside its comment. *)
Definition words (s : string) : list string :=
  omap (fun t => match t with Word w => Some w | Punct _ => None end) (fst (lex s)).

(** The keywords that introduce a type definition or a compound type. *)
Definition type_keywords : list string := ["struct"; "union"; "enum"; "typedef"].

(** The characters that open a body or an initialiser. *)
Definition body_chars : list ascii := ["{"%char; "}"%char; "="%char].

Definition puncts (s : string) : list ascii :=
  omap (fun t => match t with Punct c => Some c | Word _ => None end) (fst (lex s)).

(** Lines with no effect on the compiler proper: blank or comment lines, and
    the directives of the include guard, which the preprocessor consumes. *)
Definition is_blank (l : line) : bool :=
  match l with LBlank => true | _ => false end.

Definition is_layout (l : line) : bool := is_blank l || is_guard_directive l.

(** The header without the three lines of its include guard, for comparison. *)
Definition unguarded_lines : list line :=
  List.filter (fun l => negb (is_guard_directive l)) header_lines.

(** Unfolds the machine on a concrete line, leaving the tests on the macro set
    and on the open conditionals in place. *)
Ltac tu_simpl :=
  cbv beta delta [step push_cond pop_cond set_macros set_vis_stack declare
                  current_visibility active defined];
  cbn [run macros conds ambient vis_stack decls forallb negb hd tl andb id].

(** Closes a decidable statement about the text of the header by evaluation. *)
Ltac by_evaluation := apply (bool_decide_unpack _); vm_compute; exact I.

(** * Properties *)

Lemma header_lines_eq :
  header_lines =
  [ LBlank; LBlank; LBlank; LBlank; LBlank; LBlank; LBlank; LBlank; LBlank
  ; LIfndef guard; LDefine guard []; LBlank
  ; LVisPush Default; LBlank
  ; LProto (Proto Tint "Clinet" Punspecified)
  ; LProto (Proto Tint "SendCommand" (Pproto [Tpointer Tchar]))
  ; LProto (Proto Tint "GotoView" (Pproto [Tpointer Tchar]))
  ; LProto (Proto Tint "LoadPath" (Pproto [Tpointer Tchar]))
  ; LProto (Proto Tint "ExecutePath" Punspecified)
  ; LProto (Proto Tint "SetVelocity" (Pproto [Tfloat]))
  ; LBlank; LVisPop; LEndif ].
Proof. vm_compute. reflexivity. Qed.

(** What one inclusion does, from any state of the translation unit. *)
Lemma include_spec (st : tu_state) :
  include st =
  Some (if enters st
        then TU ({[guard]} ∪ macros st) (conds st) (ambient st) (vis_stack st)
                (decls st ++ exported)
        else st).
Proof.
  unfold include. rewrite header_lines_eq.
  destruct st as [ms cs amb vs ds]. unfold enters.
  tu_simpl.
  destruct (bool_decide (guard ∈ ms)) eqn:Hg;
    destruct (forallb id cs) eqn:Ha;
    repeat (progress (tu_simpl; rewrite ?Hg, ?Ha));
    try reflexivity.
  repeat rewrite <- app_assoc. reflexivity.
Qed.

(** An inclusion that does not enter the body changes nothing. *)
Lemma include_skipped (st : tu_state) :
  enters st = false -> include st = Some st.
Proof. intros H. rewrite include_spec, H. reflexivity. Qed.

(** After one inclusion the body is not entered again. *)
Lemma include_closes (st st' : tu_state) :
  include st = Some st' -> enters st' = false.
Proof.
  rewrite include_spec. intros [= <-].
  destruct (enters st) eqn:He; [|exact He].
  unfold enters, defined in *; cbn [macros conds active] in *.
  rewrite bool_decide_eq_true_2 by set_solver.
  apply andb_false_r.
Qed.

Lemma include_times_skipped (n : nat) (st : tu_state) :
  enters st = false -> include_times n st = Some st.
Proof.
  intros H. induction n as [|n IH]; [reflexivity|].
  cbn [include_times]. rewrite (include_skipped st H). exact IH.
Qed.

(** ** The interface *)

(** C1: the header declares exactly six functions, named Clinet, SendCommand,
    GotoView, LoadPath, ExecutePath and SetVelocity, in this order; the first
    is spelled Clinet and nothing named Client is declared; a translation
    unit that includes the header alone sees these six functions and no
    other. *)
Theorem header_declares_six_functions :
  map name (declarations header_lines) =
    ["Clinet"; "SendCommand"; "GotoView"; "LoadPath"; "ExecutePath"; "SetVelocity"]
  /\ length (declarations header_lines) = 6
  /\ lines_where is_proto header_lines = [15; 16; 17; 18; 19; 20]
  /\ find_decl "Client" header_lines = None
  /\ ("Client" ∉ map name (declarations header_lines))
  /\ forall amb : visibility,
       ((fun st => map (fun d => name (fst d)) (decls st)) <$> include (initial amb)) =
       Some ["Clinet"; "SendCommand"; "GotoView"; "LoadPath"; "ExecutePath";
             "SetVelocity"].
Proof.
  rewrite header_lines_eq.
  repeat split; try reflexivity.
  by_evaluation.
Qed.

(** C2: each of the six declared functions has return type int, which is the
    one result its declaration gives it; the only comments of the source are
    the seven banner lines at the top of the file, before the include guard,
    and none of them mentions a declared function, so nothing in the source
    documents what the returned integer encodes. *)
Theorem all_functions_return_int :
  Forall (fun p => ret p = Tint) (declarations header_lines)
  /\ map ret (declarations header_lines) = [Tint; Tint; Tint; Tint; Tint; Tint]
  /\ comments RobotControl_h =
       [ (1, ""); (2, " RobotControl.h"); (3, " RobotControl")
       ; (4, " Guanghan Pan"); (5, ""); (6, " Header file to export functions")
       ; (7, "") ]
  /\ Forall (fun c => fst c < 10) (comments RobotControl_h)
  /\ Forall (fun p => Forall (fun c => name p ∉ words (snd c))
                             (comments RobotControl_h))
            (declarations header_lines).
Proof.
  repeat split; try by_evaluation; vm_compute; reflexivity.
Qed.

(** C3: SendCommand, GotoView and LoadPath are each declared once, with
    exactly one parameter, of type pointer to char. *)
Theorem string_functions_take_one_char_pointer :
  Forall (fun f => find_decl f header_lines = Some (Proto Tint f (Pproto [Tpointer Tchar]))
                   /\ times_declared f header_lines = 1)
         ["SendCommand"; "GotoView"; "LoadPath"]
  /\ Forall (fun f => ((fun p => length (param_types (pars p))) <$> find_decl f header_lines)
                      = Some 1)
            ["SendCommand"; "GotoView"; "LoadPath"].
Proof.
  rewrite header_lines_eq. split; repeat constructor.
Qed.

(** C4: SetVelocity is declared once, with exactly one parameter, of type
    float, and return type int. *)
Theorem SetVelocity_signature :
  find_decl "SetVelocity" header_lines = Some (Proto Tint "SetVelocity" (Pproto [Tfloat]))
  /\ times_declared "SetVelocity" header_lines = 1
  /\ nth_error RobotControl_h 19 = Some "int SetVelocity(float);".
Proof.
  rewrite header_lines_eq. repeat split.
Qed.

(** C5: Clinet and ExecutePath are declared as [int f()], with an empty
    parameter list and no named parameter.  The empty list is the
    unspecified form, which is not the form [(void)]: a call with any
    arguments is accepted against it, while [(void)] accepts none. *)
Theorem Clinet_ExecutePath_empty_parameter_list :
  nth_error RobotControl_h 14 = Some "int Clinet();"
  /\ nth_error RobotControl_h 18 = Some "int ExecutePath();"
  /\ find_decl "Clinet" header_lines = Some (Proto Tint "Clinet" Punspecified)
  /\ find_decl "ExecutePath" header_lines = Some (Proto Tint "ExecutePath" Punspecified)
  /\ parse_line "int Clinet(void);" = LProto (Proto Tint "Clinet" Pvoid)
  /\ Punspecified <> Pvoid
  /\ (forall args : list ctype,
        ((fun p => call_ok (pars p) args) <$> find_decl "Clinet" header_lines) = Some true)
  /\ (forall args : list ctype,
        ((fun p => call_ok (pars p) args) <$> find_decl "ExecutePath" header_lines) = Some true)
  /\ call_ok Pvoid [] = true
  /\ forall (t : ctype) (args : list ctype), call_ok Pvoid (t :: args) = false.
Proof.
  rewrite header_lines_eq.
  repeat split; try reflexivity; try discriminate.
Qed.

(** C6: every type in the six declarations is primitive: the return types
    are int and the parameter types are float or pointer to char; the words
    struct, union, enum and typedef occur nowhere in the source, and no line
    defines a type. *)
Theorem only_primitive_types :
  Forall (fun l => Forall (fun t => primitive t = true) (types_of_line l)) header_lines
  /\ Forall (fun p => Forall (fun t => t = Tfloat \/ t = Tpointer Tchar)
                             (param_types (pars p)))
            (declarations header_lines)
  /\ Forall (fun p => ret p = Tint) (declarations header_lines)
  /\ Forall (fun s => Forall (fun k => k ∉ words s) type_keywords) RobotControl_h
  /\ lines_where defines_type header_lines = [].
Proof.
  repeat split; by_evaluation.
Qed.

(** ** Visibility *)

Lemma exported_default :
  map (fun p => (p, Default)) (declarations header_lines) = exported.
Proof. rewrite header_lines_eq. reflexivity. Qed.

(** C7: the only visibility pragmas of the header are a push(default) on
    line 13 and a pop on line 22, and the six declarations are on lines 15
    to 20, between the two; so whatever the visibility stack and the ambient
    setting of the including translation unit, every declaration the header
    adds is recorded with default visibility. *)
Theorem declarations_inside_default_visibility :
  nth_error RobotControl_h 12 = Some "#pragma GCC visibility push(default)"
  /\ nth_error RobotControl_h 21 = Some "#pragma GCC visibility pop"
  /\ lines_where is_vis_push header_lines = [13]
  /\ nth_error header_lines 12 = Some (LVisPush Default)
  /\ lines_where is_vis_pop header_lines = [22]
  /\ lines_where is_proto header_lines = [15; 16; 17; 18; 19; 20]
  /\ Forall (fun n => 13 < n /\ n < 22) (lines_where is_proto header_lines)
  /\ length (declarations header_lines) = 6
  /\ forall st : tu_state,
       (decls <$> include st) =
       Some (decls st ++
             if enters st
             then map (fun p => (p, Default)) (declarations header_lines)
             else []).
Proof.
  do 8 (split; [by_evaluation|]).
  intros st. rewrite include_spec, exported_default.
  destruct (enters st); cbn; [reflexivity|].
  rewrite app_nil_r. reflexivity.
Qed.

(** C10: the header has one visibility push and one pop, the pop after the
    push, so the pragmas are balanced; from any state of the including
    translation unit, the visibility stack (and the ambient setting) after
    the header is the one before it. *)
Theorem include_preserves_visibility_stack (st : tu_state) :
  (vis_stack <$> include st) = Some (vis_stack st)
  /\ (ambient <$> include st) = Some (ambient st)
  /\ length (lines_where is_vis_push header_lines) = 1
  /\ length (lines_where is_vis_pop header_lines) = 1
  /\ vis_depth 0 header_lines = Some 0.
Proof.
  rewrite include_spec.
  split; [destruct (enters st); reflexivity|].
  split; [destruct (enters st); reflexivity|].
  split; [by_evaluation|].
  split; by_evaluation.
Qed.

(** ** Content *)

(** C8: every line of the source is blank or a comment, a directive of the
    include guard, a visibility pragma or a function prototype; without the
    blank lines and the guard, what is left is the two pragmas around the six
    prototypes.  No line defines a function, an object or a type or holds a
    statement, no brace or initialiser occurs, and no function has a body:
    the source gives each operation a signature and nothing else. *)
Theorem header_is_declarations_only :
  Forall (fun l => is_layout l || is_vis_push l || is_vis_pop l || is_proto l = true)
         header_lines
  /\ List.filter (fun l => negb (is_layout l)) header_lines =
       LVisPush Default :: map LProto (declarations header_lines) ++ [LVisPop]
  /\ lines_where is_guard_directive header_lines = [10; 11; 23]
  /\ lines_where has_code header_lines = []
  /\ lines_where defines_object header_lines = []
  /\ lines_where defines_type header_lines = []
  /\ Forall (fun s => Forall (fun c => c ∉ puncts s) body_chars) RobotControl_h
  /\ forall f : string, body_of f header_lines = None.
Proof.
  do 7 (split; [by_evaluation|]).
  intros f. rewrite header_lines_eq. reflexivity.
Qed.

(** ** Inclusion *)

(** C9: the body of the header lies between [#ifndef RobotControl_] with
    [#define RobotControl_] (lines 10 and 11) and [#endif] (line 23).  From
    any state of the translation unit, including the header two or more times
    in a row succeeds and leaves exactly the state, and so exactly the
    declarations, that including it once leaves. *)
Theorem include_idempotent (st : tu_state) (k : nat) :
  nth_error header_lines 9 = Some (LIfndef guard)
  /\ nth_error header_lines 10 = Some (LDefine guard [])
  /\ nth_error header_lines 22 = Some LEndif
  /\ Forall (fun n => 11 < n /\ n < 23)
            (lines_where (fun l => negb (is_layout l)) header_lines)
  /\ exists st' : tu_state,
       include_times 1 st = Some st'
       /\ include_times (S (S k)) st = Some st'
       /\ (decls <$> include_times (S (S k)) st) = Some (decls st').
Proof.
  do 4 (split; [by_evaluation|]).
  destruct (include st) as [st'|] eqn:Hi.
  2: { rewrite include_spec in Hi. discriminate. }
  exists st'.
  assert (H2 : include_times (S (S k)) st = Some st').
  { change (include_times (S (S k)) st)
      with (match include st with
            | Some s => include_times (S k) s
            | None => None
            end).
    rewrite Hi. apply include_times_skipped.
    apply (include_closes st st' Hi). }
  repeat split.
  - cbn [include_times]. rewrite Hi. reflexivity.
  - exact H2.
  - rewrite H2. reflexivity.
Qed.

(** The guard is what makes the inclusion idempotent: the same lines without
    it declare every function again at each inclusion. *)
Example unguarded_inclusion_repeats :
  ((fun st => length (decls st)) <$> run (unguarded_lines ++ unguarded_lines) (initial Default))
    = Some 12
  /\ ((fun st => length (decls st)) <$> run (header_lines ++ header_lines) (initial Default))
    = Some 6.
Proof. split; vm_compute; reflexivity. Qed.

(** * Further properties of the inclusion of the header *)

Lemma run_app (a b : list line) (st : tu_state) :
  run (a ++ b) st =
  match run a st with
  | Some st' => run b st'
  | None => None
  end.
Proof.
  revert st. induction a as [|l a IH]; intros st; [reflexivity|].
  cbn [app run]. destruct (step st l); [apply IH | reflexivity].
Qed.

Lemma run_header (st : tu_state) : run header_lines st = include st.
Proof. reflexivity. Qed.

Lemma enters_defined (st : tu_state) :
  guard ∈ macros st -> enters st = false.
Proof.
  intros H. unfold enters, defined.
  rewrite (bool_decide_eq_true_2 _ H). apply andb_false_r.
Qed.

Lemma enters_inactive (st : tu_state) :
  active st = false -> enters st = false.
Proof. intros H. unfold enters. rewrite H. reflexivity. Qed.



(** X1: from any state of the translation unit the inclusion succeeds (the
    [#endif] of line 23 always finds the [#ifndef] of line 10), leaves the
    open conditionals as they were, removes no macro and defines no macro
    other than [RobotControl_]. *)
Theorem include_frame (st : tu_state) :
  exists st' : tu_state,
    include st = Some st'
    /\ conds st' = conds st
    /\ macros st ⊆ macros st'
    /\ macros st' ⊆ {[guard]} ∪ macros st.
Proof.
  rewrite include_spec. eexists. split; [reflexivity|].
  destruct (enters st); cbn [conds macros]; repeat split; set_solver.
Qed.

(** X2: when [RobotControl_] is already defined at the point of inclusion,
    the header declares none of its functions and changes nothing. *)
Theorem include_guard_already_defined (st : tu_state) :
  guard ∈ macros st -> include st = Some st.
Proof. intros H. apply include_skipped, enters_defined, H. Qed.

Lemma include_guard_already_defined_witness :
  include (TU {[guard]} [] Hidden [] []) = Some (TU {[guard]} [] Hidden [] []).
Proof.
  apply (include_guard_already_defined (TU {[guard]} [] Hidden [] [])).
  cbn [macros]. apply elem_of_singleton. reflexivity.
Defined.

(** X3: an inclusion inside a skipped conditional group does not define the
    guard: once the group is closed, the next inclusion declares the six
    functions. *)
Theorem skipped_inclusion_keeps_guard_free (st : tu_state) (cs : list bool) :
  conds st = false :: cs -> forallb id cs = true -> defined guard st = false ->
  run (header_lines ++ LEndif :: header_lines) st =
  Some (TU ({[guard]} ∪ macros st) cs (ambient st) (vis_stack st)
           (decls st ++ map (fun p => (p, Default)) (declarations header_lines))).
Proof.
  intros Hc Ha Hg. destruct st as [ms cs' amb vs ds].
  cbn [conds] in Hc. subst cs'. unfold defined in Hg. cbn [macros] in *.
  rewrite run_app, run_header, include_skipped by reflexivity.
  cbn [run step pop_cond conds macros ambient vis_stack decls].
  rewrite run_header, include_spec, exported_default.
  unfold enters, active, defined. cbn [conds macros ambient vis_stack decls].
  rewrite Ha, Hg. reflexivity.
Qed.

Lemma skipped_inclusion_keeps_guard_free_witness :
  run (header_lines ++ LEndif :: header_lines) (TU ∅ [false] Hidden [] []) =
  Some (TU ({[guard]} ∪ ∅) [] Hidden []
           ([] ++ map (fun p => (p, Default)) (declarations header_lines))).
Proof.
  apply (skipped_inclusion_keeps_guard_free (TU ∅ [false] Hidden [] []) []);
    reflexivity.
Defined.





(** X6: the guard protects only while its macro stays defined: after
    [#undef RobotControl_] a second inclusion enters the body again and
    declares the six functions a second time. *)
Theorem undef_reopens_header (st : tu_state) :
  enters st = true ->
  (decls <$> run (header_lines ++ LUndef guard :: header_lines) st) =
  Some (decls st
        ++ map (fun p => (p, Default)) (declarations header_lines)
        ++ map (fun p => (p, Default)) (declarations header_lines)).
Proof.
  intros He. rewrite run_app, run_header, include_spec, He, exported_default.
  unfold enters in He. apply andb_true_iff in He as [Ha _].
  destruct st as [ms cs amb vs ds]. unfold active in Ha. cbn [conds] in Ha.
  cbn [run step]. unfold active. cbn [conds]. rewrite Ha.
  rewrite run_header, include_spec.
  unfold enters, active, defined, set_macros.
  cbn [conds macros ambient vis_stack decls]. rewrite Ha.
  assert (Hn : guard ∉ ({[guard]} ∪ ms) ∖ {[guard]}).
  { intros [_ Hn]%elem_of_difference. apply Hn, elem_of_singleton. reflexivity. }
  rewrite (bool_decide_eq_false_2 _ Hn).
  cbn. rewrite <- app_assoc. reflexivity.
Qed.

Lemma undef_reopens_header_witness :
  (decls <$> run (header_lines ++ LUndef guard :: header_lines) (initial Hidden)) =
  Some (decls (initial Hidden)
        ++ map (fun p => (p, Default)) (declarations header_lines)
        ++ map (fun p => (p, Default)) (declarations header_lines)).
Proof.
  apply (undef_reopens_header (initial Hidden)). reflexivity.
Defined.
